(** * PromptOptimizer (src/prompt_optimization.py): a shallow embedding

    The optimizer is a set of pure functions on Python [str] values.  A
    [str] is a sequence of Unicode code points, so it is modelled as
    [list N]; the built-in string methods the source calls ([replace],
    [strip], [split], [count], [in], [join], [lower], [format]) are written
    out in module [Py] the way CPython computes them, and the methods of
    [PromptOptimizer] are then transcribed line by line on top of them. *)

From Stdlib Require Import NArith ZArith QArith String Ascii List Lia.
From stdpp Require Import gmap list.

#[local] Open Scope N_scope.

(** Python's [str]: a sequence of code points. *)
Abbreviation str := (list N).

(** ** Source literals

    [lit] reads a source literal: every character stands for its code point
    and the escape [\n] for a line feed (the only escape the source uses). *)
Fixpoint lit (s : string) : str :=
  match s with
  | EmptyString => []
  | String c s' =>
      match s' with
      | String d s'' =>
          if (Ascii.eqb c "\" && Ascii.eqb d "n")%bool
          then 10 :: lit s''
          else N_of_ascii c :: lit s'
      | EmptyString => [N_of_ascii c]
      end
  end.

(** ** Exceptions and outcomes of a call that may raise *)

Inductive exn : Type :=
| ValueError (msg : str)
| KeyError (key : str)
| IndexError
| TypeError.

(** [Unmodelled] marks a format string outside the fragment of the format
    mini-language that [Py.format] covers (see there); it is not a Python
    outcome, and no template of the registry produces it. *)
Inductive outcome : Type :=
| Return (s : str)
| Raise (e : exn)
| Unmodelled.

Definition outcome_map (f : str -> str) (o : outcome) : outcome :=
  match o with
  | Return s => Return (f s)
  | Raise e => Raise e
  | Unmodelled => Unmodelled
  end.

Module Py.

(** [str.isspace] on one code point: the table of
    [_PyUnicode_IsWhitespace]. *)
Definition isspace (c : N) : bool :=
  ((0x09 <=? c) && (c <=? 0x0D)) || ((0x1C <=? c) && (c <=? 0x20))
  || (c =? 0x85) || (c =? 0xA0) || (c =? 0x1680)
  || ((0x2000 <=? c) && (c <=? 0x200A))
  || (c =? 0x2028) || (c =? 0x2029) || (c =? 0x202F) || (c =? 0x205F)
  || (c =? 0x3000).

(** [s.lstrip()], [s.rstrip()], [s.strip()]: drop the white space at the
    left end, at the right end, at both ends. *)
Fixpoint lstrip (s : str) : str :=
  match s with
  | [] => []
  | c :: s' => if isspace c then lstrip s' else s
  end.

Definition rstrip (s : str) : str := rev (lstrip (rev s)).

Definition strip (s : str) : str := rstrip (lstrip s).

(** [s.startswith(pre)] *)
Fixpoint startswith (pre s : str) : bool :=
  match pre, s with
  | [], _ => true
  | _ :: _, [] => false
  | a :: pre', b :: s' => (a =? b) && startswith pre' s'
  end.

(** [sub in s]: [sub] starts at some position of [s]. *)
Fixpoint contains (sub s : str) : bool :=
  startswith sub s ||
  match s with
  | [] => false
  | _ :: s' => contains sub s'
  end.

(** The left-to-right scan behind [replace] and [count]: at a position
    where [old] starts, the occurrence is consumed whole ([skip] counts
    the characters of it still to pass) and the scan resumes after it, so
    occurrences never overlap. *)
Fixpoint replace_scan (old new : str) (skip : nat) (s : str) : str :=
  match s with
  | [] => []
  | c :: s' =>
      match skip with
      | S k => replace_scan old new k s'
      | O =>
          if startswith old s
          then new ++ replace_scan old new (length old - 1) s'
          else c :: replace_scan old new 0 s'
      end
  end.

(** [s.replace(old, new)]; an empty [old] matches before every character
    and at the end. *)
Definition replace (old new s : str) : str :=
  match old with
  | [] => new ++ flat_map (fun c => c :: new) s
  | _ :: _ => replace_scan old new 0 s
  end.

Fixpoint count_scan (sub : str) (skip : nat) (s : str) : nat :=
  match s with
  | [] => 0
  | _ :: s' =>
      match skip with
      | S k => count_scan sub k s'
      | O =>
          if startswith sub s
          then S (count_scan sub (length sub - 1) s')
          else count_scan sub 0 s'
      end
  end.

(** [s.count(sub)]: the number of non-overlapping occurrences. *)
Definition count (sub s : str) : nat :=
  match sub with
  | [] => S (length s)
  | _ :: _ => count_scan sub 0 s
  end.

(** [s.split()] with no separator: the maximal runs of characters that
    are not white space, in order.  [cur] is the run being read,
    reversed. *)
Fixpoint split_scan (cur : str) (s : str) : list str :=
  match s with
  | [] => match cur with [] => [] | _ :: _ => [rev cur] end
  | c :: s' =>
      if isspace c
      then match cur with
           | [] => split_scan [] s'
           | _ :: _ => rev cur :: split_scan [] s'
           end
      else split_scan (c :: cur) s'
  end.

Definition split (s : str) : list str := split_scan [] s.

(** [sep.join(items)] *)
Fixpoint join (sep : str) (items : list str) : str :=
  match items with
  | [] => []
  | x :: rest =>
      match rest with
      | [] => x
      | _ :: _ => x ++ sep ++ join sep rest
      end
  end.

(** [s.lower()].  CPython lower-cases a string of ASCII characters
    character by character ([A-Z] to [a-z]); any other string goes
    through the case mappings of the Unicode database, which is data of
    the interpreter and stays a parameter, [unicode_lower]. *)
Definition isascii (c : N) : bool := c <? 128.

Definition ascii_lower (c : N) : N :=
  if (65 <=? c) && (c <=? 90) then c + 32 else c.

Definition lower (unicode_lower : str -> str) (s : str) : str :=
  if forallb isascii s then map ascii_lower s else unicode_lower s.

(** [template.format] called on keyword arguments [kwargs] with [str]
    values, in one pass from left to right as CPython's [MarkupIterator]
    does it.  Literal text is copied; [{{] and [}}] stand for one brace;
    [{name}] is replaced by [kwargs[name]] and raises [KeyError] when the
    key is absent; a field with an empty or all-digit name is positional
    and raises [IndexError], since no positional argument is passed; a
    lone brace raises [ValueError].  Outside the model, [Unmodelled]: a
    field with a conversion ([!]), a format specification ([:]), an
    attribute or index ([.], [[]), a nested brace, a character that is
    not ASCII (the decimal digits of the Unicode database count as digits
    in a field name) or an index of more than 18 digits (it overflows).

    [field] is [None] in literal text and [Some acc] inside a field, [acc]
    being the field name read so far, reversed. *)
Definition isdigit (c : N) : bool := (48 <=? c) && (c <=? 57).

Definition field_special (c : N) : bool :=
  (c =? 123) || (c =? 33) || (c =? 58) || (c =? 46) || (c =? 91)
  || (128 <=? c).

Definition outcome_app (v : str) (o : outcome) : outcome :=
  outcome_map (app v) o.

Fixpoint format_scan (kwargs : gmap (list N) (list N))
    (field : option str) (s : str) : outcome :=
  match field with
  | None =>
      match s with
      | [] => Return []
      | c :: s' =>
          if c =? 123 then
            match s' with
            | [] => Raise (ValueError
                      (lit "Single '{' encountered in format string"))
            | d :: s'' =>
                if d =? 123
                then outcome_app [123] (format_scan kwargs None s'')
                else format_scan kwargs (Some []) s'
            end
          else if c =? 125 then
            match s' with
            | [] => Raise (ValueError
                      (lit "Single '}' encountered in format string"))
            | d :: s'' =>
                if d =? 125
                then outcome_app [125] (format_scan kwargs None s'')
                else Raise (ValueError
                       (lit "Single '}' encountered in format string"))
            end
          else outcome_app [c] (format_scan kwargs None s')
      end
  | Some acc =>
      match s with
      | [] => Raise (ValueError (lit "expected '}' before end of string"))
      | c :: s' =>
          if c =? 125 then
            let name := rev acc in
            if forallb isdigit name then
              if (length name <=? 18)%nat then Raise IndexError
              else Unmodelled
            else match kwargs !! name with
                 | None => Raise (KeyError name)
                 | Some v => outcome_app v (format_scan kwargs None s')
                 end
          else if field_special c then Unmodelled
          else format_scan kwargs (Some (c :: acc)) s'
      end
  end.

Definition format (template : str) (kwargs : gmap (list N) (list N))
    : outcome :=
  format_scan kwargs None template.

End Py.

(** ** The record built by [analyze_prompt_quality]

    The source returns a dict with five fixed string keys; the fields keep
    the keys' names. *)
Module Analysis.
Record t : Type := make {
  length : Z;
  clarity_score : Z;
  specificity_score : Q;
  structure_score : Z;
  suggestions : list str
}.
End Analysis.

(** ** class PromptOptimizer *)

Section PromptOptimizer.

(** The interpreter's lower-casing of strings that are not ASCII (see
    [Py.lower]). *)
Variable unicode_lower : str -> str.

(** [_load_templates] *)
Definition _load_templates : gmap (list N) (list N) :=
  list_to_map [
    (lit "code_review",
     lit "Review the following code for issues:\n{code}\nFocus on: {focus_areas}");
    (lit "github_task",
     lit "Help me with this GitHub task:\n{task}\nContext: {context}");
    (lit "optimization",
     lit "Optimize this {type}:\n{content}\nCriteria: {criteria}");
    (lit "debugging",
     lit "Help me debug this issue:\n{issue}\nError: {error}\nSteps: {steps}")
  ].

(** [_enhance_clarity] *)
Definition clarity_rules_replace : list (str * str) :=
  [ (lit "please", lit ""); (lit "thanks", lit ""); (lit "okay", lit "") ].

Definition clarity_rules_add : list str :=
  [ lit "Be concise and direct.";
    lit "Provide specific examples.";
    lit "Focus on actionable insights." ].

Definition _enhance_clarity (prompt : str) : str :=
  let enhanced := prompt in
  let enhanced :=
    fold_left (fun enhanced '(old, new) => Py.replace old new enhanced)
              clarity_rules_replace enhanced in
  let enhanced :=
    enhanced ++ (lit "\n\n" ++ Py.join (lit " ") clarity_rules_add) in
  Py.strip enhanced.

(** [_add_specificity] *)
Definition specificity_additions : list str :=
  [ lit "Provide specific examples or code snippets.";
    lit "Include exact error messages or outputs.";
    lit "Specify the programming language if applicable.";
    lit "Mention version numbers of tools/libraries." ].

Definition _add_specificity (prompt : str) : str :=
  prompt ++ lit "\n\n"
    ++ Py.join (lit "\n")
         (map (fun item => lit "- " ++ item) specificity_additions).

(** [_add_context]: the triple-quoted literal, line by line; its last
    line is the eight blanks before the closing quotes. *)
Definition context_template : str :=
  lit "\n"
  ++ lit "CONTEXT INFORMATION:\n"
  ++ lit "- Purpose: {purpose}\n"
  ++ lit "- Constraints: {constraints}\n"
  ++ lit "- Expected Output: {output}\n"
  ++ lit "        ".

Definition _add_context (prompt : str) : str := prompt ++ context_template.

(** [_structure_prompt]: an f-string with [prompt] after [TASK: ]. *)
Definition structure (prompt : str) : str :=
  lit "\n"
  ++ lit "TASK: " ++ prompt ++ lit "\n"
  ++ lit "\n"
  ++ lit "REQUIREMENTS:\n"
  ++ lit "1. Provide clear, step-by-step guidance\n"
  ++ lit "2. Include code examples where applicable\n"
  ++ lit "3. Highlight important considerations\n"
  ++ lit "4. Suggest best practices\n"
  ++ lit "\n"
  ++ lit "FORMAT:\n"
  ++ lit "- Use bullet points for lists\n"
  ++ lit "- Use code blocks for code\n"
  ++ lit "- Use bold for key terms\n"
  ++ lit "        ".

Definition _structure_prompt (prompt : str) : str :=
  Py.strip (structure prompt).

(** [_add_examples] *)
Definition examples_section : str :=
  lit "\n"
  ++ lit "EXAMPLES:\n"
  ++ lit "- Good: [Specific example of what's expected]\n"
  ++ lit "- Avoid: [Example of what to avoid]\n"
  ++ lit "        ".

Definition _add_examples (prompt : str) : str :=
  prompt ++ lit "\n" ++ examples_section.

(** [self.optimization_techniques], set up by [__init__] *)
Definition optimization_techniques : gmap (list N) (list N -> list N) :=
  list_to_map [
    (lit "clarity", _enhance_clarity);
    (lit "specificity", _add_specificity);
    (lit "context", _add_context);
    (lit "structure", _structure_prompt);
    (lit "examples", _add_examples)
  ].

(** [self.prompt_templates], set up by [__init__] *)
Definition prompt_templates : gmap (list N) (list N) := _load_templates.

(** [optimize]; [techniques] is [None] when the caller leaves the
    argument out. *)
Definition optimize (prompt : str) (techniques : option (list str)) : str :=
  let techniques :=
    match techniques with
    | None => [lit "clarity"; lit "specificity"; lit "structure"]
    | Some ts => ts
    end in
  let optimized := prompt in
  fold_left
    (fun optimized technique =>
       match optimization_techniques !! technique with
       | Some f => f optimized
       | None => optimized
       end)
    techniques optimized.

(** [get_optimized_prompt]; [kwargs] is the dict that the call binds to
    the double-starred parameter. *)
Definition get_optimized_prompt (prompt_type : str)
    (kwargs : gmap (list N) (list N)) : outcome :=
  match prompt_templates !! prompt_type with
  | None => Raise (ValueError (lit "Unknown prompt type: " ++ prompt_type))
  | Some template =>
      match Py.format template kwargs with
      | Return prompt => Return (optimize prompt None)
      | Raise e => Raise e
      | Unmodelled => Unmodelled
      end
  end.

(** The call [optimizer.get_optimized_prompt(prompt_type, ...)] with the
    keyword arguments [substitutions], as a caller writes it.  In the
    signature, [self] and [prompt_type] come before the double-starred
    parameter and have their values from the positional arguments: a
    keyword of either name makes the binding raise [TypeError] before the
    body runs.  Every other keyword goes into [kwargs]. *)
Definition call_get_optimized_prompt (prompt_type : str)
    (substitutions : gmap (list N) (list N)) : outcome :=
  match substitutions !! lit "self", substitutions !! lit "prompt_type" with
  | None, None => get_optimized_prompt prompt_type substitutions
  | _, _ => Raise TypeError
  end.

(** [batch_optimize] *)
Definition batch_optimize (prompts : list str) : list str :=
  map (fun p => optimize p None) prompts.

(** [_calculate_clarity]; the sum runs over the keywords that pass the
    filter of the generator. *)
Definition clarity_keywords : list str :=
  [ lit "specific"; lit "exact"; lit "clear"; lit "show"; lit "provide" ].

Definition _calculate_clarity (prompt : str) : Z :=
  let score :=
    fold_left Z.add
      (map (fun _ => 10%Z)
         (List.filter
            (fun keyword =>
               Py.contains keyword (Py.lower unicode_lower prompt))
            clarity_keywords))
      0%Z in
  Z.min score 100.

(** [_calculate_specificity]: true division of an [int] by 2.  The
    quotient of an integer below 2^53 by 2 is a binary64 number, so the
    float is the rational written here. *)
Definition _calculate_specificity (prompt : str) : Q :=
  inject_Z (Z.of_nat (length (Py.split prompt))) / 2.

(** [_calculate_structure] *)
Definition _calculate_structure (prompt : str) : Z :=
  let has_sections := (2 <=? Py.count (lit "\n") prompt)%nat in
  let has_format :=
    existsb (fun x => Py.contains x prompt)
            [lit ":"; lit "1."; lit "-"; lit "*"] in
  if has_sections && has_format then 50%Z else 25%Z.

(** [_get_suggestions] *)
Definition _get_suggestions (prompt : str) : list str :=
  let suggestions := [] in
  let suggestions :=
    if (length (Py.split prompt) <? 10)%nat
    then suggestions ++ [lit "Add more context and details"]
    else suggestions in
  let suggestions :=
    if (Py.count (lit "\n") prompt <? 2)%nat
    then suggestions ++ [lit "Use sections or bullet points for clarity"]
    else suggestions in
  let suggestions :=
    if negb (existsb (fun x => Py.contains x prompt)
               [lit "example"; lit "code"; lit "specific"])
    then suggestions ++ [lit "Include examples or specific cases"]
    else suggestions in
  suggestions.

(** [analyze_prompt_quality] *)
Definition analyze_prompt_quality (prompt : str) : Analysis.t :=
  {| Analysis.length := Z.of_nat (length (Py.split prompt));
     Analysis.clarity_score := _calculate_clarity prompt;
     Analysis.specificity_score := _calculate_specificity prompt;
     Analysis.structure_score := _calculate_structure prompt;
     Analysis.suggestions := _get_suggestions prompt |}.

(** [create_advanced_prompt] (module level): the f-string assembled
    line by line, then the default pipeline. *)
Definition create_advanced_prompt (task context constraints : str)
    (examples : list str) : str :=
  let advanced_prompt :=
    lit "\n"
    ++ lit "MAIN TASK:\n"
    ++ task ++ lit "\n"
    ++ lit "\n"
    ++ lit "CONTEXT:\n"
    ++ context ++ lit "\n"
    ++ lit "\n"
    ++ lit "CONSTRAINTS:\n"
    ++ constraints ++ lit "\n"
    ++ lit "\n"
    ++ lit "EXAMPLES:\n"
    ++ Py.join [10] (map (fun ex => lit "- " ++ ex) examples) ++ lit "\n"
    ++ lit "\n"
    ++ lit "RESPONSE GUIDELINES:\n"
    ++ lit "1. Be direct and concise\n"
    ++ lit "2. Provide step-by-step guidance\n"
    ++ lit "3. Include code examples where relevant\n"
    ++ lit "4. Highlight important considerations\n"
    ++ lit "5. Suggest best practices\n"
    ++ lit "    " in
  optimize advanced_prompt
    (Some [lit "clarity"; lit "specificity"; lit "structure"]).

(** ** Notions the statements below use *)

(** One pass over [s] from the left that deletes each occurrence of
    [old] it meets: either [old] does not occur in [s], or [s] splits
    around the leftmost occurrence and the pass goes on behind it. *)
Inductive deleted (old : str) : str -> str -> Prop :=
| deleted_none s :
    Py.contains old s = false -> deleted old s s
| deleted_first a b r :
    Py.contains old (a ++ removelast old) = false ->
    deleted old b r ->
    deleted old (a ++ old ++ b) (a ++ r).

(** The number of times the code point [c] occurs in [s]. *)
Definition occurrences (c : N) (s : str) : nat :=
  length (List.filter (N.eqb c) s).

(** A format string read as a sequence of literal characters and named
    fields; [None] when it is malformed or outside the fragment that
    [Py.format] models. *)
Inductive piece : Type :=
| Text (c : N)
| Field (name : str).

Fixpoint parse_scan (field : option str) (s : str) : option (list piece) :=
  match field with
  | None =>
      match s with
      | [] => Some []
      | c :: s' =>
          if c =? 123 then
            match s' with
            | [] => None
            | d :: s'' =>
                if d =? 123
                then cons (Text 123) <$> parse_scan None s''
                else parse_scan (Some []) s'
            end
          else if c =? 125 then
            match s' with
            | [] => None
            | d :: s'' =>
                if d =? 125
                then cons (Text 125) <$> parse_scan None s''
                else None
            end
          else cons (Text c) <$> parse_scan None s'
      end
  | Some acc =>
      match s with
      | [] => None
      | c :: s' =>
          if c =? 125 then
            if forallb Py.isdigit (rev acc) then None
            else cons (Field (rev acc)) <$> parse_scan None s'
          else if Py.field_special c then None
          else parse_scan (Some (c :: acc)) s'
      end
  end.

Definition parse (template : str) : option (list piece) :=
  parse_scan None template.

(** The placeholders a template refers to, in order of appearance. *)
Fixpoint fields (ps : list piece) : list str :=
  match ps with
  | [] => []
  | Text _ :: ps' => fields ps'
  | Field name :: ps' => name :: fields ps'
  end.

Definition placeholders (template : str) : list str :=
  match parse template with
  | Some ps => fields ps
  | None => []
  end.

(** Substitution into a parsed template, field by field from the left. *)
Fixpoint render (kwargs : gmap (list N) (list N)) (ps : list piece)
    : outcome :=
  match ps with
  | [] => Return []
  | Text c :: ps' => Py.outcome_app [c] (render kwargs ps')
  | Field name :: ps' =>
      match kwargs !! name with
      | None => Raise (KeyError name)
      | Some v => Py.outcome_app v (render kwargs ps')
      end
  end.

(** The body of the loop of [optimize]. *)
Definition apply_technique (optimized technique : str) : str :=
  match optimization_techniques !! technique with
  | Some f => f optimized
  | None => optimized
  end.

(** The names of the two registries. *)
Definition technique_names : list str :=
  [ lit "clarity"; lit "specificity"; lit "context"; lit "structure";
    lit "examples" ].

Definition template_names : list str :=
  [ lit "code_review"; lit "github_task"; lit "optimization";
    lit "debugging" ].

(** The fixed text that [_structure_prompt] puts behind the task, and
    the directive block that [_enhance_clarity] appends. *)
Definition structure_rest : str :=
  lit "\n\nREQUIREMENTS:\n"
  ++ lit "1. Provide clear, step-by-step guidance\n"
  ++ lit "2. Include code examples where applicable\n"
  ++ lit "3. Highlight important considerations\n"
  ++ lit "4. Suggest best practices\n"
  ++ lit "\nFORMAT:\n"
  ++ lit "- Use bullet points for lists\n"
  ++ lit "- Use code blocks for code\n"
  ++ lit "- Use bold for key terms".

Definition clarity_directives : str :=
  lit "Be concise and direct. Provide specific examples. Focus on actionable insights.".

(** ** Facts about the built-ins *)

Lemma isspace_lstrip_app ws s :
  forallb Py.isspace ws = true -> Py.lstrip (ws ++ s) = Py.lstrip s.
Proof.
  induction ws as [|c ws IH]; simpl; [done|].
  intros [Hc Hws]%andb_prop. rewrite Hc. auto.
Qed.

Lemma lstrip_nonspace c s :
  Py.isspace c = false -> Py.lstrip (c :: s) = c :: s.
Proof. intros H. simpl. by rewrite H. Qed.

Lemma rstrip_app_space s ws :
  forallb Py.isspace ws = true -> Py.rstrip (s ++ ws) = Py.rstrip s.
Proof.
  intros H. unfold Py.rstrip. rewrite rev_app_distr.
  rewrite isspace_lstrip_app; [done|].
  rewrite forallb_forall in *. intros x Hx. apply H. by apply in_rev.
Qed.

Lemma rstrip_snoc_nonspace s c :
  Py.isspace c = false -> Py.rstrip (s ++ [c]) = s ++ [c].
Proof.
  intros H. unfold Py.rstrip. rewrite rev_app_distr. simpl.
  rewrite H. simpl. by rewrite rev_involutive.
Qed.

(** White space around a text that starts and ends with other characters
    is all that [strip] removes. *)
Lemma strip_core ws1 a mid b ws2 :
  forallb Py.isspace ws1 = true -> forallb Py.isspace ws2 = true ->
  Py.isspace a = false -> Py.isspace b = false ->
  Py.strip (ws1 ++ (a :: mid ++ [b]) ++ ws2) = a :: mid ++ [b].
Proof.
  intros H1 H2 Ha Hb. unfold Py.strip.
  rewrite isspace_lstrip_app by done. simpl. rewrite Ha.
  change (a :: (mid ++ [b]) ++ ws2) with ((a :: mid ++ [b]) ++ ws2).
  rewrite rstrip_app_space by done.
  change (a :: mid ++ [b]) with ((a :: mid) ++ [b]).
  by apply rstrip_snoc_nonspace.
Qed.

Lemma lstrip_snoc_nonspace s c :
  Py.isspace c = false -> exists s', Py.lstrip (s ++ [c]) = s' ++ [c].
Proof.
  intros H. induction s as [|d s IH]; simpl.
  - rewrite H. by exists [].
  - destruct (Py.isspace d); [done|]. by exists (d :: s).
Qed.

(** A text that ends with a character other than white space keeps its
    end under [strip]. *)
Lemma strip_snoc_nonspace s c :
  Py.isspace c = false -> exists s', Py.strip (s ++ [c]) = s' ++ [c].
Proof.
  intros H. destruct (lstrip_snoc_nonspace s c H) as [s' Hs'].
  exists s'. unfold Py.strip. rewrite Hs'. by apply rstrip_snoc_nonspace.
Qed.

Lemma startswith_spec pre s :
  Py.startswith pre s = true <-> exists r, s = pre ++ r.
Proof.
  revert s. induction pre as [|a pre IH]; intros s; simpl.
  - split; [by exists s|done].
  - destruct s as [|b s].
    + split; [done|]. by intros [r Hr].
    + rewrite andb_true_iff, N.eqb_eq, IH. split.
      * intros [-> [r ->]]. by exists r.
      * intros [r Hr]. injection Hr as -> ->. eauto.
Qed.

Lemma startswith_app old b : Py.startswith old (old ++ b) = true.
Proof. apply startswith_spec. by exists b. Qed.

Lemma startswith_length pre s :
  Py.startswith pre s = true -> (length pre <= length s)%nat.
Proof.
  intros [r ->]%startswith_spec. rewrite length_app. lia.
Qed.

Lemma startswith_app_l old u v :
  Py.startswith old u = true -> Py.startswith old (u ++ v) = true.
Proof.
  intros [r ->]%startswith_spec. apply startswith_spec.
  exists (r ++ v). by rewrite app_assoc.
Qed.

Lemma startswith_app_le old u v :
  Py.startswith old (u ++ v) = true -> (length old <= length u)%nat ->
  Py.startswith old u = true.
Proof.
  revert u. induction old as [|a old IH]; intros u; simpl; [done|].
  destruct u as [|b u]; simpl; [lia|].
  intros [Hab H]%andb_prop Hlen. rewrite Hab. simpl.
  apply IH; [done|lia].
Qed.

Lemma contains_length sub s :
  Py.contains sub s = true -> (length sub <= length s)%nat.
Proof.
  induction s as [|c s IH]; simpl.
  - rewrite orb_false_r. apply startswith_length.
  - intros [H|H]%orb_prop.
    + by apply startswith_length in H.
    + apply IH in H. lia.
Qed.

Lemma contains_cons_false sub c s :
  Py.contains sub (c :: s) = false ->
  Py.startswith sub (c :: s) = false /\ Py.contains sub s = false.
Proof. simpl. by intros ?%orb_false_elim. Qed.

Lemma removelast_length (old : str) :
  old <> [] -> length (removelast old) = (length old - 1)%nat.
Proof.
  intros H. destruct (exists_last H) as (l & x & ->).
  rewrite removelast_last, length_app. simpl. lia.
Qed.

Lemma removelast_prefix (old : str) :
  old <> [] -> exists x, old = removelast old ++ [x].
Proof.
  intros H. destruct (exists_last H) as (l & x & ->).
  exists x. by rewrite removelast_last.
Qed.

(** What [skip] does: the scan resumes [skip] characters further on. *)
Lemma replace_scan_skip old new k s :
  Py.replace_scan old new k s = Py.replace_scan old new 0 (drop k s).
Proof.
  revert k. induction s as [|c s IH]; intros [|k]; try done.
  simpl Py.replace_scan at 1. by rewrite IH.
Qed.

(** The scan as CPython's loop reads: at an occurrence, write [new] and
    go on behind it; elsewhere copy one character. *)
Lemma replace_scan_cons old new c s :
  old <> [] ->
  Py.replace_scan old new 0 (c :: s) =
    if Py.startswith old (c :: s)
    then new ++ Py.replace_scan old new 0 (drop (length old) (c :: s))
    else c :: Py.replace_scan old new 0 s.
Proof.
  intros Hold. simpl Py.replace_scan at 1.
  destruct (Py.startswith old (c :: s)); [|done].
  rewrite replace_scan_skip. destruct old as [|o old]; [done|].
  simpl. by rewrite Nat.sub_0_r.
Qed.

Lemma replace_scan_nomatch old new s :
  Py.contains old s = false -> Py.replace_scan old new 0 s = s.
Proof.
  induction s as [|c s IH]; [done|].
  intros [H1 H2]%contains_cons_false.
  simpl Py.replace_scan. rewrite H1. by rewrite IH.
Qed.

Lemma replace_scan_first old new a b :
  old <> [] ->
  Py.contains old (a ++ removelast old) = false ->
  Py.replace_scan old new 0 (a ++ old ++ b) =
    a ++ new ++ Py.replace_scan old new 0 b.
Proof.
  intros Hold. induction a as [|c a IH]; intros Hno.
  - simpl app. destruct old as [|o old]; [done|].
    change ((o :: old) ++ b) with (o :: (old ++ b)).
    rewrite replace_scan_cons by done.
    change (o :: old ++ b) with ((o :: old) ++ b).
    rewrite startswith_app. by rewrite drop_app_length.
  - change ((c :: a) ++ old ++ b) with (c :: (a ++ old ++ b)).
    change ((c :: a) ++ removelast old) with (c :: (a ++ removelast old))
      in Hno.
    apply contains_cons_false in Hno as [H1 H2].
    rewrite replace_scan_cons by done.
    destruct (Py.startswith old (c :: a ++ old ++ b)) eqn:E.
    + exfalso. destruct (removelast_prefix old Hold) as [x Hx].
      rewrite Hx in E at 2.
      change (c :: a ++ (removelast old ++ [x]) ++ b)
        with ((c :: a) ++ (removelast old ++ [x]) ++ b) in E.
      rewrite <- app_assoc, (app_assoc (c :: a)) in E.
      apply startswith_app_le in E.
      * simpl in E. simpl in H1. congruence.
      * rewrite length_app, removelast_length by done. simpl.
        destruct old; [done|]. simpl. lia.
    + rewrite IH by done. done.
Qed.

Lemma contains_leftmost old s :
  old <> [] -> Py.contains old s = true ->
  exists a b, s = a ++ old ++ b /\
              Py.contains old (a ++ removelast old) = false.
Proof.
  intros Hold. induction s as [|c s IH]; intros H.
  - apply contains_length in H. destruct old; [done|]. simpl in H. lia.
  - destruct (Py.startswith old (c :: s)) eqn:E.
    + apply startswith_spec in E as [b Hb]. exists [], b. split; [done|].
      simpl app. destruct (Py.contains old (removelast old)) eqn:E'; [|done].
      apply contains_length in E'. rewrite removelast_length in E' by done.
      destruct old; [done|]. simpl in E'. lia.
    + simpl in H. simpl in E. rewrite E in H. simpl in H.
      destruct (IH H) as (a & b & -> & Hno).
      exists (c :: a), b. split; [done|].
      change ((c :: a) ++ removelast old) with (c :: (a ++ removelast old)).
      simpl Py.contains. rewrite Hno, orb_false_r.
      destruct (Py.startswith old (c :: a ++ removelast old)) eqn:E2;
        [|done].
      change (c :: a ++ removelast old) with ((c :: a) ++ removelast old)
        in E2.
      destruct (removelast_prefix old Hold) as [x Hx].
      apply (startswith_app_l _ _ ([x] ++ b)) in E2.
      rewrite <- app_assoc in E2. simpl in E2. simpl in E.
      rewrite Hx in E at 2. rewrite <- app_assoc in E. simpl in E.
      congruence.
Qed.

(** [replace] with an empty replacement is the deleting pass, and the
    pass has no other result. *)
Lemma replace_deleted old s :
  old <> [] -> deleted old s (Py.replace old [] s).
Proof.
  intros Hold.
  assert (Hr : forall s, Py.replace old [] s = Py.replace_scan old [] 0 s)
    by (intros ?; by destruct old).
  rewrite Hr. clear Hr.
  remember (length s) as n eqn:Hn. revert s Hn.
  induction n as [n IH] using lt_wf_ind. intros s ->.
  destruct (Py.contains old s) eqn:E.
  - destruct (contains_leftmost old s Hold E) as (a & b & -> & Hno).
    rewrite replace_scan_first by done. simpl app.
    apply deleted_first; [done|].
    apply (IH (length b)); [|done].
    rewrite !length_app. destruct old; [done|]. simpl. lia.
  - rewrite replace_scan_nomatch by done. by apply deleted_none.
Qed.

Lemma deleted_unique old s r :
  old <> [] -> deleted old s r -> r = Py.replace old [] s.
Proof.
  intros Hold H.
  assert (Hr : forall s, Py.replace old [] s = Py.replace_scan old [] 0 s)
    by (intros ?; by destruct old).
  rewrite Hr. induction H as [s H|a b r Hno _ IH].
  - by rewrite replace_scan_nomatch.
  - rewrite replace_scan_first by done. simpl app. by rewrite <- Hr, IH, Hr.
Qed.

Lemma occurrences_app c s1 s2 :
  occurrences c (s1 ++ s2) = (occurrences c s1 + occurrences c s2)%nat.
Proof. unfold occurrences. by rewrite List.filter_app, length_app. Qed.

Lemma occurrences_rev c s : occurrences c (rev s) = occurrences c s.
Proof.
  induction s as [|d s IH]; [done|]. simpl rev.
  rewrite occurrences_app, IH. unfold occurrences. simpl.
  destruct (c =? d); simpl; lia.
Qed.

Lemma occurrences_lstrip c s :
  Py.isspace c = false -> occurrences c (Py.lstrip s) = occurrences c s.
Proof.
  intros Hc. induction s as [|d s IH]; [done|]. simpl Py.lstrip.
  destruct (Py.isspace d) eqn:Hd; [|done].
  rewrite IH. unfold occurrences. simpl.
  destruct (N.eqb_spec c d) as [->|]; [congruence|done].
Qed.

(** [strip] removes white space only. *)
Lemma occurrences_strip c s :
  Py.isspace c = false -> occurrences c (Py.strip s) = occurrences c s.
Proof.
  intros Hc. unfold Py.strip, Py.rstrip.
  by rewrite occurrences_rev, occurrences_lstrip, occurrences_rev,
    occurrences_lstrip.
Qed.

(** The deleting pass removes characters of [old] only. *)
Lemma occurrences_deleted c old s r :
  occurrences c old = 0%nat -> deleted old s r ->
  occurrences c r = occurrences c s.
Proof.
  intros Hc H. induction H as [s H|a b r Hno _ IH]; [done|].
  rewrite !occurrences_app, IH, Hc. lia.
Qed.

(** [_enhance_clarity] with its loop and its [join] carried out. *)
Lemma enhance_clarity_unfold prompt :
  _enhance_clarity prompt =
    Py.strip
      (Py.replace (lit "okay") []
         (Py.replace (lit "thanks") []
            (Py.replace (lit "please") [] prompt))
       ++ lit "\n\n" ++ clarity_directives).
Proof.
  assert (Hj : Py.join (lit " ") clarity_rules_add = clarity_directives)
    by (vm_compute; reflexivity).
  unfold _enhance_clarity, clarity_rules_replace. rewrite Hj.
  cbn [fold_left]. reflexivity.
Qed.

(** The result of [_enhance_clarity] ends with the full stop of the
    directive block. *)
Lemma enhance_clarity_last prompt :
  exists s, _enhance_clarity prompt = s ++ [46].
Proof.
  rewrite enhance_clarity_unfold.
  assert (Hd : exists d, lit "\n\n" ++ clarity_directives = d ++ [46]).
  { exists (removelast (lit "\n\n" ++ clarity_directives)).
    vm_compute. reflexivity. }
  destruct Hd as [d ->]. rewrite app_assoc.
  by apply strip_snoc_nonspace.
Qed.

(** [_structure_prompt] keeps its argument whole between two fixed
    texts. *)
Lemma structure_prompt_eq prompt :
  _structure_prompt prompt = lit "TASK: " ++ prompt ++ structure_rest.
Proof.
  unfold _structure_prompt.
  transitivity
    (Py.strip ([10] ++ (84 :: (lit "ASK: " ++ prompt
        ++ removelast structure_rest) ++ [115]) ++ lit "\n        ")).
  - f_equal. unfold structure. simpl app. rewrite <- !app_assoc.
    change (lit "\n" ++ lit "TASK: " ++ ?r)
      with (10 :: 84 :: lit "ASK: " ++ r).
    do 3 f_equal.
  - rewrite strip_core by (vm_compute; reflexivity).
    rewrite <- !app_assoc.
    change (lit "TASK: " ++ ?r) with (84 :: lit "ASK: " ++ r).
    do 3 f_equal.
Qed.

(** ** The two registries *)

Lemma optimization_techniques_lookup (t : str) :
  optimization_techniques !! t =
    if decide (lit "clarity" = t) then Some _enhance_clarity
    else if decide (lit "specificity" = t) then Some _add_specificity
    else if decide (lit "context" = t) then Some _add_context
    else if decide (lit "structure" = t) then Some _structure_prompt
    else if decide (lit "examples" = t) then Some _add_examples
    else None.
Proof.
  unfold optimization_techniques. cbn [list_to_map foldr uncurry].
  by rewrite !lookup_insert, lookup_empty.
Qed.

Lemma prompt_templates_lookup (name : str) :
  prompt_templates !! name =
    if decide (lit "code_review" = name) then
      Some (lit "Review the following code for issues:\n{code}\nFocus on: {focus_areas}")
    else if decide (lit "github_task" = name) then
      Some (lit "Help me with this GitHub task:\n{task}\nContext: {context}")
    else if decide (lit "optimization" = name) then
      Some (lit "Optimize this {type}:\n{content}\nCriteria: {criteria}")
    else if decide (lit "debugging" = name) then
      Some (lit "Help me debug this issue:\n{issue}\nError: {error}\nSteps: {steps}")
    else None.
Proof.
  unfold prompt_templates, _load_templates.
  cbn [list_to_map foldr uncurry].
  by rewrite !lookup_insert, lookup_empty.
Qed.

Ltac decide_names :=
  repeat match goal with
    | |- context [decide (lit ?a = lit ?b)] =>
        destruct (decide (lit a = lit b)) as [E|E];
        [try (vm_compute in E; discriminate E)
        |try (exfalso; apply E; reflexivity)]
    end.

Lemma lookup_clarity :
  optimization_techniques !! lit "clarity" = Some _enhance_clarity.
Proof. rewrite optimization_techniques_lookup. by decide_names. Qed.

Lemma lookup_specificity :
  optimization_techniques !! lit "specificity" = Some _add_specificity.
Proof. rewrite optimization_techniques_lookup. by decide_names. Qed.

Lemma lookup_structure :
  optimization_techniques !! lit "structure" = Some _structure_prompt.
Proof. rewrite optimization_techniques_lookup. by decide_names. Qed.

(** The keys of [optimization_techniques] are the five technique names,
    those of [prompt_templates] the four template names. *)
Lemma optimization_techniques_None (t : str) :
  optimization_techniques !! t = None <-> t ∉ technique_names.
Proof.
  rewrite optimization_techniques_lookup. unfold technique_names.
  rewrite !not_elem_of_cons.
  repeat case_decide; subst; split; try done; try tauto.
  intros _. repeat split; try done. apply not_elem_of_nil.
Qed.

Lemma prompt_templates_None (name : str) :
  prompt_templates !! name = None <-> name ∉ template_names.
Proof.
  rewrite prompt_templates_lookup. unfold template_names.
  rewrite !not_elem_of_cons.
  repeat case_decide; subst; split; try done; try tauto.
  intros _. repeat split; try done. apply not_elem_of_nil.
Qed.

(** ** The pipeline *)

Lemma optimize_fold prompt ts :
  optimize prompt (Some ts) = fold_left apply_technique ts prompt.
Proof. reflexivity. Qed.

Lemma optimize_default prompt :
  optimize prompt None =
    optimize prompt
      (Some [lit "clarity"; lit "specificity"; lit "structure"]).
Proof. reflexivity. Qed.

Lemma optimize_app prompt ts1 ts2 :
  optimize prompt (Some (ts1 ++ ts2)) =
    optimize (optimize prompt (Some ts1)) (Some ts2).
Proof. rewrite !optimize_fold. apply fold_left_app. Qed.

Lemma occurrences_enhance_clarity prompt :
  occurrences 46 (_enhance_clarity prompt) = (occurrences 46 prompt + 3)%nat.
Proof.
  rewrite enhance_clarity_unfold, occurrences_strip by done.
  rewrite occurrences_app.
  assert (Hdel : forall old s, old <> [] -> occurrences 46 old = 0%nat ->
            occurrences 46 (Py.replace old [] s) = occurrences 46 s).
  { intros old s Hold Hocc.
    exact (occurrences_deleted 46 old s _ Hocc (replace_deleted old s Hold)). }
  rewrite !Hdel by done. reflexivity.
Qed.

(** ** Claims about the pipeline *)

(** C1.  With the technique list [clarity, structure], [optimize] returns
    the structure template whose [TASK:] body is the clarity-transformed
    prompt, which is never the prompt itself (it has three more full
    stops); the example of the spec is evaluated.  Every technique works
    on the output of the one before it, and the result depends on the
    order: for every prompt the lists [clarity, structure] and
    [structure, clarity] give different results. *)
Theorem optimize_clarity_structure_order :
  (forall p : str,
     optimize p (Some [lit "clarity"; lit "structure"]) =
       lit "TASK: " ++ _enhance_clarity p ++ structure_rest)
  /\ (forall p : str, _enhance_clarity p <> p)
  /\ optimize (lit "fix this bug") (Some [lit "clarity"; lit "structure"]) =
       lit "TASK: fix this bug\n\n" ++ clarity_directives ++ structure_rest
  /\ (forall (p t : str) (ts : list str),
        optimize p (Some (t :: ts)) =
          optimize (optimize p (Some [t])) (Some ts))
  /\ (forall p : str,
        optimize p (Some [lit "clarity"; lit "structure"]) <>
          optimize p (Some [lit "structure"; lit "clarity"])).
Proof.
  assert (H1 : forall p : str,
     optimize p (Some [lit "clarity"; lit "structure"]) =
       lit "TASK: " ++ _enhance_clarity p ++ structure_rest).
  { intros p. rewrite optimize_fold. cbn [fold_left].
    unfold apply_technique. rewrite lookup_clarity, lookup_structure.
    apply structure_prompt_eq. }
  split; [exact H1|]. split; [|split; [|split]].
  - intros p Hp. pose proof (occurrences_enhance_clarity p) as H.
    rewrite Hp in H. lia.
  - rewrite H1. vm_compute. reflexivity.
  - intros p t ts. apply (optimize_app p [t] ts).
  - intros p. rewrite H1. rewrite optimize_fold. cbn [fold_left].
    unfold apply_technique. rewrite lookup_clarity, lookup_structure.
    destruct (enhance_clarity_last (_structure_prompt p)) as [s ->].
    assert (Hr : structure_rest = removelast structure_rest ++ [115])
      by (vm_compute; reflexivity).
    rewrite Hr, !app_assoc. intros [_ Hc]%app_inj_tail. discriminate Hc.
Qed.

(** C2.  Technique names outside the registry are skipped: a list made
    of such names only gives the prompt back unchanged, and in any list
    they can be dropped without changing the result.  [optimize] is a
    total function to [str]: nothing is raised. *)
Theorem optimize_skips_unknown_techniques :
  (forall (p : str) (ts : list str),
     Forall (fun t => t ∉ technique_names) ts ->
     optimize p (Some ts) = p)
  /\ (forall (p : str) (ts : list str),
        optimize p (Some ts) =
          optimize p
            (Some (List.filter
                     (fun t => bool_decide (t ∈ technique_names)) ts))).
Proof.
  split.
  - intros p ts H. rewrite optimize_fold. revert p.
    induction H as [|t ts Ht _ IH]; intros p; [done|].
    cbn [fold_left]. unfold apply_technique at 2.
    apply optimization_techniques_None in Ht. rewrite Ht. apply IH.
  - intros p ts. rewrite !optimize_fold. revert p.
    induction ts as [|t ts IH]; intros p; [done|].
    cbn [fold_left List.filter]. case_bool_decide as Ht.
    + cbn [fold_left]. apply IH.
    + unfold apply_technique at 2.
      apply optimization_techniques_None in Ht. rewrite Ht. apply IH.
Qed.

(** The default pipeline adds eleven full stops to a prompt. *)
Lemma occurrences_optimize_default prompt :
  occurrences 46 (optimize prompt None) = (occurrences 46 prompt + 11)%nat.
Proof.
  rewrite optimize_default, optimize_fold. cbn [fold_left].
  unfold apply_technique.
  rewrite lookup_clarity, lookup_specificity, lookup_structure.
  rewrite structure_prompt_eq. unfold _add_specificity.
  rewrite !occurrences_app, occurrences_enhance_clarity.
  assert (H1 : occurrences 46 (lit "TASK: ") = 0%nat)
    by (vm_compute; reflexivity).
  assert (H2 : occurrences 46 (lit "\n\n") = 0%nat)
    by (vm_compute; reflexivity).
  assert (H3 : occurrences 46
                 (Py.join (lit "\n")
                    (map (fun item => lit "- " ++ item)
                       specificity_additions)) = 4%nat)
    by (vm_compute; reflexivity).
  assert (H4 : occurrences 46 structure_rest = 4%nat)
    by (vm_compute; reflexivity).
  rewrite H1, H2, H3, H4. lia.
Qed.

(** C9.  With an empty technique list, [optimize] is the identity: the
    empty list is not replaced by the default list, whose result is never
    the prompt. *)
Theorem optimize_no_techniques (p : str) :
  optimize p (Some []) = p
  /\ optimize p None <> optimize p (Some []).
Proof.
  assert (H : optimize p (Some []) = p) by reflexivity.
  split; [exact H|]. rewrite H. intros Heq.
  pose proof (occurrences_optimize_default p) as Hocc.
  rewrite Heq in Hocc. lia.
Qed.

(** C8.  [batch_optimize] returns as many results as there are prompts,
    the i-th being [optimize] of the i-th prompt with the default
    technique list [clarity, specificity, structure]; the result at a
    position is the same whatever the prompts around it. *)
Theorem batch_optimize_pointwise (prompts : list str) :
  length (batch_optimize prompts) = length prompts
  /\ (forall i : nat,
        batch_optimize prompts !! i =
          (fun p => optimize p
             (Some [lit "clarity"; lit "specificity"; lit "structure"]))
            <$> prompts !! i)
  /\ (forall (before after : list str) (p : str),
        batch_optimize (before ++ p :: after) !! length before =
          Some (optimize p
            (Some [lit "clarity"; lit "specificity"; lit "structure"]))).
Proof.
  unfold batch_optimize. split; [apply length_map|]. split.
  - intros i. rewrite <- list_lookup_fmap. reflexivity.
  - intros before after p.
    change (map ?f ?l) with (f <$> l).
    rewrite fmap_app, fmap_cons.
    rewrite lookup_app_r; rewrite length_fmap; [|lia].
    rewrite Nat.sub_diag. reflexivity.
Qed.

(** C5.  [_enhance_clarity] makes three deleting passes over the prompt,
    for [please], then [thanks], then [okay], appends two line feeds and
    the three directive sentences joined by single blanks, and strips the
    whole.  A pass also deletes inside a longer word ([okaydone]).  On
    [please okay thanks] the result is the directive block alone, in which
    none of the three substrings occurs. *)
Theorem enhance_clarity_spec :
  (forall p : str, exists r1 r2 r3 : str,
     deleted (lit "please") p r1
     /\ deleted (lit "thanks") r1 r2
     /\ deleted (lit "okay") r2 r3
     /\ _enhance_clarity p =
          Py.strip (r3 ++ lit "\n\n"
            ++ lit "Be concise and direct. Provide specific examples. Focus on actionable insights."))
  /\ _enhance_clarity (lit "okaydone") =
       lit "done\n\nBe concise and direct. Provide specific examples. Focus on actionable insights."
  /\ optimize (lit "please okay thanks") (Some [lit "clarity"]) =
       lit "Be concise and direct. Provide specific examples. Focus on actionable insights."
  /\ Forall
       (fun w =>
          Py.contains w
            (optimize (lit "please okay thanks") (Some [lit "clarity"]))
          = false)
       [lit "please"; lit "okay"; lit "thanks"].
Proof.
  split; [|split; [|split]].
  - intros p.
    exists (Py.replace (lit "please") [] p).
    exists (Py.replace (lit "thanks") [] (Py.replace (lit "please") [] p)).
    exists (Py.replace (lit "okay") []
              (Py.replace (lit "thanks") []
                 (Py.replace (lit "please") [] p))).
    do 3 (split; [by apply replace_deleted|]).
    rewrite enhance_clarity_unfold. unfold clarity_directives.
    reflexivity.
  - vm_compute. reflexivity.
  - vm_compute. reflexivity.
  - repeat constructor; vm_compute; reflexivity.
Qed.

(** ** Templates and substitution *)

(** On a format string that [parse] accepts, [Py.format] is the
    substitution into the parsed pieces. *)
Lemma format_scan_render kwargs :
  forall (n : nat) (s : str) (field : option str) (ps : list piece),
    (length s <= n)%nat ->
    parse_scan field s = Some ps ->
    Py.format_scan kwargs field s = render kwargs ps.
Proof.
  induction n as [|n IH]; intros s field ps Hlen Hp.
  - destruct s; [|simpl in Hlen; lia].
    destruct field; simpl in *; [discriminate|]. by injection Hp as <-.
  - destruct s as [|c s']; [destruct field; simpl in *;
      [discriminate|by injection Hp as <-]|].
    simpl in Hlen. destruct field as [acc|].
    + cbn [parse_scan Py.format_scan] in *.
      destruct (c =? 125).
      * destruct (forallb Py.isdigit (rev acc)); [discriminate|].
        destruct (parse_scan None s') as [ps'|] eqn:E; [|discriminate].
        injection Hp as <-. cbn [render].
        rewrite (IH s' None ps') by (done || lia). done.
      * destruct (Py.field_special c); [discriminate|].
        apply IH; [lia|done].
    + cbn [parse_scan Py.format_scan] in *.
      destruct (c =? 123).
      * destruct s' as [|d s'']; [discriminate|].
        destruct (d =? 123).
        -- destruct (parse_scan None s'') as [ps'|] eqn:E; [|discriminate].
           injection Hp as <-. cbn [render].
           rewrite (IH s'' None ps') by (done || simpl in Hlen; lia). done.
        -- apply IH; [lia|done].
      * destruct (c =? 125).
        -- destruct s' as [|d s'']; [discriminate|].
           destruct (d =? 125); [|discriminate].
           destruct (parse_scan None s'') as [ps'|] eqn:E; [|discriminate].
           injection Hp as <-. cbn [render].
           rewrite (IH s'' None ps') by (done || simpl in Hlen; lia). done.
        -- destruct (parse_scan None s') as [ps'|] eqn:E; [|discriminate].
           injection Hp as <-. cbn [render].
           rewrite (IH s' None ps') by (done || lia). done.
Qed.

Lemma format_render template kwargs ps :
  parse template = Some ps -> Py.format template kwargs = render kwargs ps.
Proof. intros H. by apply (format_scan_render kwargs (length template)). Qed.

(** The first placeholder without a value stops the substitution with
    [KeyError]. *)
Lemma render_missing kwargs ps :
  Exists (fun f => kwargs !! f = None) (fields ps) ->
  exists (k : str) (before after : list str),
    fields ps = before ++ k :: after
    /\ Forall (fun f => is_Some (kwargs !! f)) before
    /\ kwargs !! k = None
    /\ render kwargs ps = Raise (KeyError k).
Proof.
  induction ps as [|[c|name] ps IH]; cbn [fields render]; intros H.
  - by apply Exists_nil in H.
  - destruct (IH H) as (k & before & after & H1 & H2 & H3 & ->).
    by exists k, before, after.
  - destruct (kwargs !! name) as [v|] eqn:E.
    + apply Exists_cons in H as [H|H]; [congruence|].
      destruct (IH H) as (k & before & after & H1 & H2 & H3 & ->).
      exists k, (name :: before), after. rewrite H1.
      repeat split; try done. apply Forall_cons. split; [by exists v|done].
    + exists name, [], (fields ps). repeat split; try done.
Qed.

(** With a value for every placeholder the substitution returns. *)
Lemma render_total kwargs ps :
  Forall (fun f => is_Some (kwargs !! f)) (fields ps) ->
  exists s, render kwargs ps = Return s.
Proof.
  induction ps as [|[c|name] ps IH]; cbn [fields render]; intros H.
  - by exists [].
  - destruct (IH H) as [s ->]. by eexists.
  - apply Forall_cons in H as [[v ->] H].
    destruct (IH H) as [s ->]. by eexists.
Qed.

(** The substitution reads the mapping at the placeholders only. *)
Lemma render_ext kwargs kwargs' ps :
  Forall (fun f => kwargs' !! f = kwargs !! f) (fields ps) ->
  render kwargs' ps = render kwargs ps.
Proof.
  induction ps as [|[c|name] ps IH]; cbn [fields render]; intros H.
  - done.
  - by rewrite IH.
  - apply Forall_cons in H as [-> H]. by rewrite IH.
Qed.

(** Every template of the registry is in the modelled fragment. *)
Lemma prompt_templates_parse name template :
  prompt_templates !! name = Some template ->
  exists ps, parse template = Some ps /\ placeholders template = fields ps.
Proof.
  rewrite prompt_templates_lookup. unfold placeholders.
  repeat case_decide; intros [= <-];
    eexists; (split; [vm_compute; reflexivity|vm_compute; reflexivity]).
Qed.

Lemma placeholders_registry :
  placeholders
    (lit "Review the following code for issues:\n{code}\nFocus on: {focus_areas}")
    = [lit "code"; lit "focus_areas"]
  /\ placeholders
       (lit "Help me with this GitHub task:\n{task}\nContext: {context}")
     = [lit "task"; lit "context"]
  /\ placeholders
       (lit "Optimize this {type}:\n{content}\nCriteria: {criteria}")
     = [lit "type"; lit "content"; lit "criteria"]
  /\ placeholders
       (lit "Help me debug this issue:\n{issue}\nError: {error}\nSteps: {steps}")
     = [lit "issue"; lit "error"; lit "steps"].
Proof. repeat split; vm_compute; reflexivity. Qed.

Lemma get_optimized_prompt_render name template ps kwargs :
  prompt_templates !! name = Some template ->
  parse template = Some ps ->
  get_optimized_prompt name kwargs =
    match render kwargs ps with
    | Return prompt => Return (optimize prompt None)
    | Raise e => Raise e
    | Unmodelled => Unmodelled
    end.
Proof.
  intros Ht Hp. unfold get_optimized_prompt. rewrite Ht.
  by rewrite (format_render _ _ _ Hp).
Qed.

(** C3.  For a name outside the template registry,
    [get_optimized_prompt] raises [ValueError] with the message
    [Unknown prompt type: ] followed by the name, whatever the
    substitution mapping: nothing is substituted and no string is
    returned. *)
Theorem get_optimized_prompt_unknown_template
    (prompt_type : str) (kwargs : gmap (list N) (list N)) :
  prompt_type ∉ template_names ->
  get_optimized_prompt prompt_type kwargs =
    Raise (ValueError (lit "Unknown prompt type: " ++ prompt_type)).
Proof.
  intros H%prompt_templates_None. unfold get_optimized_prompt.
  by rewrite H.
Qed.

(** C4.  For a registered template and a mapping that lacks the value of
    one of its placeholders, [get_optimized_prompt] raises [KeyError]
    for the first placeholder without a value, and returns no string. *)
Theorem get_optimized_prompt_missing_value
    (prompt_type template : str) (kwargs : gmap (list N) (list N)) :
  prompt_templates !! prompt_type = Some template ->
  Exists (fun f => kwargs !! f = None) (placeholders template) ->
  exists (k : str) (before after : list str),
    placeholders template = before ++ k :: after
    /\ Forall (fun f => is_Some (kwargs !! f)) before
    /\ kwargs !! k = None
    /\ get_optimized_prompt prompt_type kwargs = Raise (KeyError k).
Proof.
  intros Ht Hm.
  destruct (prompt_templates_parse _ _ Ht) as (ps & Hp & Hf).
  rewrite Hf in *.
  destruct (render_missing kwargs ps Hm)
    as (k & before & after & H1 & H2 & H3 & H4).
  exists k, before, after. repeat split; try done.
  by rewrite (get_optimized_prompt_render _ _ _ _ Ht Hp), H4.
Qed.

(** The body of [get_optimized_prompt], on the dict [kwargs] it is
    entered with: for a registered template and a value for each of its
    placeholders it returns a string, and the same one when keys that are
    no placeholders of the template are added to the dict. *)
Lemma get_optimized_prompt_body_extra_keys
    (prompt_type template : str) (kwargs extra : gmap (list N) (list N)) :
  prompt_templates !! prompt_type = Some template ->
  Forall (fun f => is_Some (kwargs !! f)) (placeholders template) ->
  Forall (fun f => extra !! f = None) (placeholders template) ->
  get_optimized_prompt prompt_type (extra ∪ kwargs) =
    get_optimized_prompt prompt_type kwargs
  /\ exists s, get_optimized_prompt prompt_type kwargs = Return s.
Proof.
  intros Ht Hk He.
  destruct (prompt_templates_parse _ _ Ht) as (ps & Hp & Hf).
  rewrite Hf in *.
  rewrite !(get_optimized_prompt_render _ _ _ _ Ht Hp).
  split.
  - rewrite (render_ext kwargs (extra ∪ kwargs)); [done|].
    eapply Forall_impl; [exact He|]. intros f Hf'. simpl in Hf'.
    rewrite lookup_union, Hf'. by destruct (kwargs !! f).
  - destruct (render_total kwargs ps Hk) as [s ->]. by eexists.
Qed.

(** C10, as amended.  For a registered template and keyword arguments with a
    value for each of its placeholders, none of them named [self] or
    [prompt_type], the call returns a string, and the same one when further
    keywords are added that are no placeholders of the template and are
    not named [self] or [prompt_type]. *)
Theorem call_get_optimized_prompt_extra_keys
    (prompt_type template : str)
    (substitutions extra : gmap (list N) (list N)) :
  prompt_templates !! prompt_type = Some template ->
  Forall (fun f => is_Some (substitutions !! f)) (placeholders template) ->
  Forall (fun f => extra !! f = None) (placeholders template) ->
  substitutions !! lit "self" = None ->
  substitutions !! lit "prompt_type" = None ->
  extra !! lit "self" = None ->
  extra !! lit "prompt_type" = None ->
  call_get_optimized_prompt prompt_type (extra ∪ substitutions) =
    call_get_optimized_prompt prompt_type substitutions
  /\ exists s,
       call_get_optimized_prompt prompt_type (extra ∪ substitutions)
       = Return s.
Proof.
  intros Ht Hk He Hs Hp Hes Hep.
  destruct (get_optimized_prompt_body_extra_keys _ _ _ _ Ht Hk He)
    as [Heq [s Hr]].
  assert (Hus : (extra ∪ substitutions) !! lit "self" = None)
    by (by apply lookup_union_None).
  assert (Hup : (extra ∪ substitutions) !! lit "prompt_type" = None)
    by (by apply lookup_union_None).
  unfold call_get_optimized_prompt. rewrite Hus, Hup, Hs, Hp.
  split; [exact Heq|]. exists s. by rewrite Heq.
Qed.

(** ** Quality analysis *)

(** C7.  The clarity score is 10 for each of the five keywords that
    occurs in the lower-cased prompt, capped at 100 by [min]; the cap
    never binds, the score lies between 0 and 50, and it is 50 when all
    five keywords occur. *)
Theorem calculate_clarity_score (prompt : str) :
  let keywords :=
    [lit "specific"; lit "exact"; lit "clear"; lit "show"; lit "provide"] in
  let hits :=
    List.filter
      (fun keyword => Py.contains keyword (Py.lower unicode_lower prompt))
      keywords in
  _calculate_clarity prompt = Z.min (10 * Z.of_nat (length hits)) 100
  /\ _calculate_clarity prompt = (10 * Z.of_nat (length hits))%Z
  /\ (0 <= _calculate_clarity prompt <= 50)%Z
  /\ (Forall
        (fun keyword =>
           Py.contains keyword (Py.lower unicode_lower prompt) = true)
        keywords ->
      _calculate_clarity prompt = 50%Z).
Proof.
  unfold _calculate_clarity, clarity_keywords.
  generalize (Py.lower unicode_lower prompt). intros lowered.
  cbn zeta. cbn [List.filter].
  assert (Hall :
    Forall (fun keyword => Py.contains keyword lowered = true)
      [lit "specific"; lit "exact"; lit "clear"; lit "show"; lit "provide"]
    -> Py.contains (lit "specific") lowered = true
       /\ Py.contains (lit "exact") lowered = true
       /\ Py.contains (lit "clear") lowered = true
       /\ Py.contains (lit "show") lowered = true
       /\ Py.contains (lit "provide") lowered = true).
  { intros H. repeat (apply Forall_cons in H as [? H]). done. }
  destruct (Py.contains (lit "specific") lowered);
    destruct (Py.contains (lit "exact") lowered);
    destruct (Py.contains (lit "clear") lowered);
    destruct (Py.contains (lit "show") lowered);
    destruct (Py.contains (lit "provide") lowered);
    cbn [map fold_left length];
    (split; [lia|split; [lia|split; [lia|]]]);
    intros H; apply Hall in H; try reflexivity;
    destruct H as (? & ? & ? & ? & ?); discriminate.
Qed.

(** C6.  On the prompt [a b c] the analysis is: length 3, clarity score
    0, specificity score 3/2 = 1.5, structure score 25, and the three
    suggestions in their fixed order; all three conditions hold (3 tokens,
    no line feed, none of [example], [code], [specific]). *)
Theorem analyze_prompt_quality_abc :
  analyze_prompt_quality (lit "a b c") =
    {| Analysis.length := 3;
       Analysis.clarity_score := 0;
       Analysis.specificity_score := 3 # 2;
       Analysis.structure_score := 25;
       Analysis.suggestions :=
         [ lit "Add more context and details";
           lit "Use sections or bullet points for clarity";
           lit "Include examples or specific cases" ] |}
  /\ (Analysis.specificity_score (analyze_prompt_quality (lit "a b c"))
      == 1.5)%Q
  /\ (length (Py.split (lit "a b c")) < 10)%nat
  /\ (Py.count (lit "\n") (lit "a b c") < 2)%nat
  /\ existsb (fun x => Py.contains x (lit "a b c"))
       [lit "example"; lit "code"; lit "specific"] = false.
Proof.
  split; [vm_compute; reflexivity|].
  split; [vm_compute; reflexivity|].
  split; [vm_compute; lia|].
  split; [vm_compute; lia|].
  vm_compute; reflexivity.
Qed.

(** ** Further properties of the techniques and of the pipeline *)

Lemma lookup_context :
  optimization_techniques !! lit "context" = Some _add_context.
Proof. rewrite optimization_techniques_lookup. by decide_names. Qed.

Lemma lookup_examples :
  optimization_techniques !! lit "examples" = Some _add_examples.
Proof. rewrite optimization_techniques_lookup. by decide_names. Qed.

(** [lstrip] of a concatenation. *)
Lemma lstrip_app a b :
  Py.lstrip (a ++ b) =
    if forallb Py.isspace a then Py.lstrip b else Py.lstrip a ++ b.
Proof.
  induction a as [|c a IH]; [done|]. simpl.
  destruct (Py.isspace c); [exact IH|done].
Qed.

Lemma contains_app_l sub a b :
  Py.contains sub a = true -> Py.contains sub (a ++ b) = true.
Proof.
  induction a as [|c a IH]; simpl.
  - rewrite orb_false_r. intros H. destruct sub; [by destruct b|done].
  - intros [H|H]%orb_prop.
    + change (c :: a ++ b) with ((c :: a) ++ b).
      by rewrite (startswith_app_l _ _ _ H).
    + rewrite (IH H). apply orb_true_r.
Qed.

Lemma contains_app_r sub a b :
  Py.contains sub b = true -> Py.contains sub (a ++ b) = true.
Proof.
  intros H. induction a as [|c a IH]; [done|]. simpl.
  rewrite IH. apply orb_true_r.
Qed.

(** X1.  [_structure_prompt] loses nothing of its argument: the result is
    the argument, with its own white space, between [TASK: ] and the fixed
    rest of the template; so the function is injective, and the result is
    258 characters longer than the argument. *)
Theorem structure_prompt_lossless :
  (forall p : str,
     _structure_prompt p = lit "TASK: " ++ p ++ structure_rest)
  /\ (forall p q : str, _structure_prompt p = _structure_prompt q -> p = q)
  /\ (forall p : str,
        length (_structure_prompt p) = (length p + 258)%nat).
Proof.
  split; [exact structure_prompt_eq|]. split.
  - intros p q. rewrite !structure_prompt_eq.
    intros H%app_inv_head. by apply app_inv_tail in H.
  - intros p. rewrite structure_prompt_eq, !length_app.
    assert (H1 : length (lit "TASK: ") = 6%nat) by (vm_compute; reflexivity).
    assert (H2 : length structure_rest = 252%nat)
      by (vm_compute; reflexivity).
    rewrite H1, H2. lia.
Qed.

(** X2.  Running [optimize] on a concatenation of two technique lists is
    running it on the first list and then, on that result, on the second. *)
Theorem optimize_concatenated_lists (p : str) (ts1 ts2 : list str) :
  optimize p (Some (ts1 ++ ts2)) =
    optimize (optimize p (Some ts1)) (Some ts2).
Proof. rewrite !optimize_fold. apply fold_left_app. Qed.

(** X3.  When [structure] is the last technique, the result is the
    structure template around the result of the techniques before it; the
    default pipeline returns the template around the clarity-transformed
    prompt followed by the four specificity bullets. *)
Theorem optimize_structure_last :
  (forall (p : str) (ts : list str),
     optimize p (Some (ts ++ [lit "structure"])) =
       lit "TASK: " ++ optimize p (Some ts) ++ structure_rest)
  /\ (forall p : str,
        optimize p None =
          lit "TASK: " ++ _enhance_clarity p
          ++ lit "\n\n"
          ++ lit "- Provide specific examples or code snippets.\n"
          ++ lit "- Include exact error messages or outputs.\n"
          ++ lit "- Specify the programming language if applicable.\n"
          ++ lit "- Mention version numbers of tools/libraries."
          ++ structure_rest).
Proof.
  split.
  - intros p ts. rewrite optimize_app, (optimize_fold _ [_]).
    cbn [fold_left]. unfold apply_technique. rewrite lookup_structure.
    apply structure_prompt_eq.
  - intros p. rewrite optimize_default, optimize_fold. cbn [fold_left].
    unfold apply_technique.
    rewrite lookup_clarity, lookup_specificity, lookup_structure.
    rewrite structure_prompt_eq. unfold _add_specificity.
    rewrite <- !app_assoc. do 3 f_equal.
Qed.

(** Every technique but [clarity] and [structure] appends to its input. *)
Lemma apply_technique_appends (p t : str) :
  t <> lit "clarity" -> t <> lit "structure" ->
  exists k, apply_technique p t = p ++ k.
Proof.
  intros Hc Hs. unfold apply_technique.
  rewrite optimization_techniques_lookup.
  repeat case_decide; subst; try done.
  - unfold _add_specificity. eauto.
  - unfold _add_context. eauto.
  - unfold _add_examples. eauto.
  - exists []. by rewrite app_nil_r.
Qed.

(** X4.  A technique list without [clarity] and [structure] only appends:
    the prompt is a prefix of the result, character for character. *)
Theorem optimize_appending_keeps_prompt (p : str) (ts : list str) :
  Forall (fun t => t <> lit "clarity" /\ t <> lit "structure") ts ->
  p `prefix_of` optimize p (Some ts).
Proof.
  intros H. rewrite optimize_fold. revert p.
  induction H as [|t ts [Hc Hs] _ IH]; intros p; [done|].
  cbn [fold_left].
  destruct (apply_technique_appends p t Hc Hs) as [k ->].
  etransitivity; [|apply IH]. by apply prefix_app_r.
Qed.

Lemma lstrip_hd_nonspace a :
  forallb Py.isspace a = false ->
  exists c r, Py.lstrip a = c :: r /\ Py.isspace c = false.
Proof.
  induction a as [|c a IH]; [done|]. simpl.
  destruct (Py.isspace c) eqn:E; [exact IH|]. intros _. by exists c, a.
Qed.

(** X5.  The result of [_enhance_clarity] is the directive block alone
    when the prompt is white space after the three deletions, and
    otherwise the cleaned prompt without its leading white space (its
    trailing white space stays), two line feeds and the directive block.
    The result is already stripped. *)
Theorem enhance_clarity_shape (p : str) :
  let cleaned :=
    Py.replace (lit "okay") []
      (Py.replace (lit "thanks") [] (Py.replace (lit "please") [] p)) in
  _enhance_clarity p =
    (if forallb Py.isspace cleaned then clarity_directives
     else Py.lstrip cleaned ++ lit "\n\n" ++ clarity_directives)
  /\ Py.strip (_enhance_clarity p) = _enhance_clarity p.
Proof.
  intros cleaned.
  assert (Hx : lit "\n\n" ++ clarity_directives =
               removelast (lit "\n\n" ++ clarity_directives) ++ [46])
    by (vm_compute; reflexivity).
  assert (Hd : clarity_directives = 66 :: removelast (tail clarity_directives)
                 ++ [46]) by (vm_compute; reflexivity).
  assert (Hl : Py.lstrip (lit "\n\n" ++ clarity_directives)
               = clarity_directives) by (vm_compute; reflexivity).
  assert (Heq : _enhance_clarity p =
    if forallb Py.isspace cleaned then clarity_directives
    else Py.lstrip cleaned ++ lit "\n\n" ++ clarity_directives).
  { rewrite enhance_clarity_unfold. fold cleaned. unfold Py.strip.
    rewrite lstrip_app. destruct (forallb Py.isspace cleaned).
    - rewrite Hl, Hd.
      change (66 :: ?m ++ [46]) with ((66 :: m) ++ [46]).
      by apply rstrip_snoc_nonspace.
    - rewrite Hx, app_assoc. by apply rstrip_snoc_nonspace. }
  split; [exact Heq|]. rewrite Heq.
  destruct (forallb Py.isspace cleaned) eqn:E.
  - rewrite Hd.
    apply (strip_core [] 66 (removelast (tail clarity_directives)) 46 []);
      done.
  - destruct (lstrip_hd_nonspace cleaned E) as (c & r & -> & Hc).
    rewrite Hx.
    pose proof (strip_core [] c
      (r ++ removelast (lit "\n\n" ++ clarity_directives)) 46 []
      eq_refl eq_refl Hc eq_refl) as H.
    rewrite app_nil_r in H. simpl app in H. rewrite <- app_assoc in H.
    exact H.
Qed.

Lemma replace_nomatch old new s :
  old <> [] -> Py.contains old s = false -> Py.replace old new s = s.
Proof.
  intros Hold H. destruct old; [done|]. by apply replace_scan_nomatch.
Qed.

(** X6.  On a prompt in which none of [please], [thanks], [okay] occurs,
    [_enhance_clarity] changes nothing inside the prompt: it drops the
    leading white space and appends two line feeds and the directive
    block. *)
Theorem enhance_clarity_without_keywords (p : str) :
  Py.contains (lit "please") p = false ->
  Py.contains (lit "thanks") p = false ->
  Py.contains (lit "okay") p = false ->
  _enhance_clarity p =
    Py.lstrip (p ++ lit "\n\n" ++ clarity_directives).
Proof.
  intros H1 H2 H3. rewrite enhance_clarity_unfold.
  rewrite (replace_nomatch _ _ p) by done.
  rewrite (replace_nomatch _ _ p) by done.
  rewrite (replace_nomatch _ _ p) by done.
  unfold Py.strip.
  assert (Hx : lit "\n\n" ++ clarity_directives =
               removelast (lit "\n\n" ++ clarity_directives) ++ [46])
    by (vm_compute; reflexivity).
  rewrite Hx, app_assoc.
  destruct (lstrip_snoc_nonspace
              (p ++ removelast (lit "\n\n" ++ clarity_directives)) 46 eq_refl)
    as [s' ->].
  by apply rstrip_snoc_nonspace.
Qed.

Ltac render_template :=
  unfold get_optimized_prompt; rewrite prompt_templates_lookup;
  repeat (let E := fresh "E" in
          case_decide as E;
          [try (vm_compute in E; discriminate E)
          |try (exfalso; apply E; reflexivity)];
          try clear E);
  match goal with
  | |- context [Py.format ?t ?kw] =>
      let E := fresh "E" in
      eassert (E : parse t = Some _) by (vm_compute; reflexivity);
      rewrite (format_render t kw _ E); clear E
  end;
  cbn [render].

Ltac use_value H :=
  match type of H with
  | lookup ?k _ = _ =>
      let k' := eval vm_compute in k in
      change k with k' in H; rewrite H
  end.

(** X7.  With a value for each placeholder, [get_optimized_prompt] returns
    the default pipeline applied to the template text with the values put
    in place of the placeholders.  The values go in as they are: braces
    inside a value are not read as placeholders. *)
Theorem get_optimized_prompt_substitutes (kwargs : gmap (list N) (list N)) :
  (forall code focus_areas : str,
     kwargs !! lit "code" = Some code ->
     kwargs !! lit "focus_areas" = Some focus_areas ->
     get_optimized_prompt (lit "code_review") kwargs =
       Return (optimize
                 (lit "Review the following code for issues:\n" ++ code
                  ++ lit "\nFocus on: " ++ focus_areas) None))
  /\ (forall task context : str,
        kwargs !! lit "task" = Some task ->
        kwargs !! lit "context" = Some context ->
        get_optimized_prompt (lit "github_task") kwargs =
          Return (optimize
                    (lit "Help me with this GitHub task:\n" ++ task
                     ++ lit "\nContext: " ++ context) None))
  /\ (forall type content criteria : str,
        kwargs !! lit "type" = Some type ->
        kwargs !! lit "content" = Some content ->
        kwargs !! lit "criteria" = Some criteria ->
        get_optimized_prompt (lit "optimization") kwargs =
          Return (optimize
                    (lit "Optimize this " ++ type ++ lit ":\n" ++ content
                     ++ lit "\nCriteria: " ++ criteria) None))
  /\ (forall issue error steps : str,
        kwargs !! lit "issue" = Some issue ->
        kwargs !! lit "error" = Some error ->
        kwargs !! lit "steps" = Some steps ->
        get_optimized_prompt (lit "debugging") kwargs =
          Return (optimize
                    (lit "Help me debug this issue:\n" ++ issue
                     ++ lit "\nError: " ++ error
                     ++ lit "\nSteps: " ++ steps) None)).
Proof.
  split; [|split; [|split]].
  - intros code focus_areas H1 H2. render_template. cbn [Py.outcome_app outcome_map app].
    use_value H1. cbn [Py.outcome_app outcome_map app].
    use_value H2. cbn [Py.outcome_app outcome_map app]. rewrite app_nil_r.
    do 2 f_equal.
  - intros task context H1 H2. render_template. cbn [Py.outcome_app outcome_map app].
    use_value H1. cbn [Py.outcome_app outcome_map app].
    use_value H2. cbn [Py.outcome_app outcome_map app]. rewrite app_nil_r.
    do 2 f_equal.
  - intros type content criteria H1 H2 H3. render_template. cbn [Py.outcome_app outcome_map app].
    use_value H1. cbn [Py.outcome_app outcome_map app].
    use_value H2. cbn [Py.outcome_app outcome_map app].
    use_value H3. cbn [Py.outcome_app outcome_map app]. rewrite app_nil_r.
    do 2 f_equal.
  - intros issue error steps H1 H2 H3. render_template. cbn [Py.outcome_app outcome_map app].
    use_value H1. cbn [Py.outcome_app outcome_map app].
    use_value H2. cbn [Py.outcome_app outcome_map app].
    use_value H3. cbn [Py.outcome_app outcome_map app]. rewrite app_nil_r.
    do 2 f_equal.
Qed.

(** ** Further properties of the quality analysis *)

(** Counting a one-character substring is counting the character. *)
Lemma count_single c s : Py.count [c] s = occurrences c s.
Proof.
  unfold Py.count, occurrences. induction s as [|d s IH]; [done|].
  cbn [Py.count_scan Py.startswith List.filter length Nat.sub].
  rewrite andb_true_r. destruct (c =? d); simpl; by rewrite IH.
Qed.

Lemma split_scan_length_cur s :
  forall cur cur' : str, cur <> [] -> cur' <> [] ->
    length (Py.split_scan cur s) = length (Py.split_scan cur' s).
Proof.
  induction s as [|c s IH]; intros cur cur' H H'.
  - by destruct cur, cur'.
  - simpl. destruct (Py.isspace c).
    + by destruct cur, cur'.
    + by apply IH.
Qed.

Lemma split_scan_length_nil s cur :
  (length (Py.split_scan [] s) <= length (Py.split_scan cur s))%nat.
Proof.
  destruct cur as [|x cur]; [done|]. destruct s as [|c s]; [simpl; lia|].
  simpl. destruct (Py.isspace c); [simpl; lia|].
  by rewrite (split_scan_length_cur s [c] (c :: x :: cur)).
Qed.

(** Text put in front of a string never lowers its number of tokens. *)
Lemma split_scan_length_app a :
  forall (cur b : str),
    (length (Py.split_scan [] b) <= length (Py.split_scan cur (a ++ b)))%nat.
Proof.
  induction a as [|c a IH]; intros cur b.
  - apply split_scan_length_nil.
  - simpl. destruct (Py.isspace c); [|apply IH].
    destruct cur; [apply IH|]. simpl. specialize (IH [] b). lia.
Qed.

Lemma split_scan_nil s :
  forall cur : str,
    Py.split_scan cur s = [] <-> cur = [] /\ forallb Py.isspace s = true.
Proof.
  induction s as [|c s IH]; intros cur.
  - simpl. destruct cur; split; try done. by intros [? _].
  - simpl. destruct (Py.isspace c); simpl.
    + destruct cur; [by rewrite IH|]. split; [done|by intros [? _]].
    + rewrite IH. split; [by intros [? _]|by intros [_ ?]].
Qed.

(** A substring brings its characters along. *)
Lemma contains_occurrences sub s c :
  sub <> [] -> Py.contains sub s = true ->
  (occurrences c sub <= occurrences c s)%nat.
Proof.
  intros Hsub H.
  destruct (contains_leftmost sub s Hsub H) as (a & b & -> & _).
  rewrite !occurrences_app. lia.
Qed.

(** X8.  Whatever the prompt, the output of [_structure_prompt], and so
    that of the default pipeline, has structure score 50 and gets no
    suggestion. *)
Theorem structured_prompt_analysis (p : str) :
  _calculate_structure (_structure_prompt p) = 50%Z
  /\ _get_suggestions (_structure_prompt p) = []
  /\ _calculate_structure (optimize p None) = 50%Z
  /\ _get_suggestions (optimize p None) = [].
Proof.
  assert (H : forall q : str,
    _calculate_structure (_structure_prompt q) = 50%Z
    /\ _get_suggestions (_structure_prompt q) = []).
  { intros q. rewrite structure_prompt_eq.
    set (s := lit "TASK: " ++ q ++ structure_rest).
    assert (Hn : (11 <= Py.count (lit "\n") s)%nat).
    { change (lit "\n") with [10]. rewrite count_single. unfold s.
      rewrite !occurrences_app.
      assert (Hr : occurrences 10 structure_rest = 11%nat)
        by (vm_compute; reflexivity).
      lia. }
    assert (Hc : Py.contains (lit ":") s = true).
    { unfold s. apply contains_app_l. vm_compute. reflexivity. }
    assert (He : Py.contains (lit "example") s = true).
    { unfold s. do 2 apply contains_app_r. vm_compute. reflexivity. }
    assert (Ht : (36 <= length (Py.split s))%nat).
    { unfold s, Py.split. rewrite app_assoc.
      etransitivity; [|apply split_scan_length_app].
      vm_compute. lia. }
    split.
    - unfold _calculate_structure. cbn [existsb]. rewrite Hc.
      destruct (2 <=? Py.count (lit "\n") s)%nat eqn:E; [done|].
      apply Nat.leb_gt in E. lia.
    - unfold _get_suggestions. cbn [existsb]. rewrite He.
      destruct (length (Py.split s) <? 10)%nat eqn:E1;
        [apply Nat.ltb_lt in E1; lia|].
      destruct (Py.count (lit "\n") s <? 2)%nat eqn:E2;
        [apply Nat.ltb_lt in E2; lia|].
      reflexivity. }
  split; [apply H|]. split; [apply H|].
  rewrite optimize_default, optimize_fold. cbn [fold_left].
  unfold apply_technique at 1. rewrite lookup_structure. apply H.
Qed.

(** X9.  [_get_suggestions] returns a sublist of the three advisory
    strings, in their order, and it returns none exactly for a prompt of
    at least 10 tokens, with at least two line feeds, in which [example],
    [code] or [specific] occurs. *)
Theorem get_suggestions_none_iff (p : str) :
  _get_suggestions p `sublist_of`
    [ lit "Add more context and details";
      lit "Use sections or bullet points for clarity";
      lit "Include examples or specific cases" ]
  /\ (_get_suggestions p = [] <->
      (10 <= length (Py.split p))%nat
      /\ (2 <= occurrences 10 p)%nat
      /\ (Py.contains (lit "example") p = true
          \/ Py.contains (lit "code") p = true
          \/ Py.contains (lit "specific") p = true)).
Proof.
  unfold _get_suggestions. change (lit "\n") with [10].
  rewrite count_single. cbn [existsb]. rewrite orb_false_r.
  generalize (lit "Add more context and details"),
    (lit "Use sections or bullet points for clarity"),
    (lit "Include examples or specific cases").
  intros s1 s2 s3.
  destruct (length (Py.split p) <? 10)%nat eqn:E1;
    [apply Nat.ltb_lt in E1|apply Nat.ltb_ge in E1];
  (destruct (occurrences 10 p <? 2)%nat eqn:E2;
    [apply Nat.ltb_lt in E2|apply Nat.ltb_ge in E2]);
  destruct (Py.contains (lit "example") p);
  destruct (Py.contains (lit "code") p);
  destruct (Py.contains (lit "specific") p);
  cbn [orb negb app];
  (split;
   [repeat first [apply sublist_nil | apply sublist_skip | apply sublist_cons]
   |split; [try discriminate; intros _; repeat split; auto; lia
           |intros (? & ? & [?|[?|?]]); try discriminate; try lia;
            reflexivity]]).
Qed.

(** X10.  The [length] of the analysis is 0 exactly for a prompt made of
    white space only, the empty prompt included; the specificity score is
    always half the length. *)
Theorem analysis_length_zero_iff (p : str) :
  (Analysis.length (analyze_prompt_quality p) = 0%Z
   <-> forallb Py.isspace p = true)
  /\ (Analysis.specificity_score (analyze_prompt_quality p) * 2
      == inject_Z (Analysis.length (analyze_prompt_quality p)))%Q.
Proof.
  cbn [analyze_prompt_quality Analysis.length Analysis.specificity_score].
  split.
  - unfold Py.split. split.
    + intros H. destruct (Py.split_scan [] p) eqn:E; [|simpl in H; lia].
      by apply split_scan_nil in E as [_ ?].
    + intros H. assert (E : Py.split_scan [] p = [])
        by (by apply split_scan_nil). by rewrite E.
  - unfold _calculate_specificity. field.
Qed.

(** X11.  Two ASCII prompts that differ only in the case of their letters
    get the same clarity score. *)
Theorem calculate_clarity_ignores_case (p q : str) :
  forallb Py.isascii p = true -> forallb Py.isascii q = true ->
  map Py.ascii_lower p = map Py.ascii_lower q ->
  _calculate_clarity p = _calculate_clarity q.
Proof.
  intros Hp Hq H. unfold _calculate_clarity, Py.lower.
  by rewrite Hp, Hq, H.
Qed.

(** X12.  The third check of [_get_suggestions] reads the prompt as it
    is, without lower-casing: a prompt without the small letter [e] always
    gets the suggestion [Include examples or specific cases]. *)
Theorem get_suggestions_case_sensitive (p : str) :
  occurrences 101 p = 0%nat ->
  lit "Include examples or specific cases" ∈ _get_suggestions p.
Proof.
  intros H.
  assert (Hno : forall sub : str, sub <> [] ->
            (1 <= occurrences 101 sub)%nat -> Py.contains sub p = false).
  { intros sub Hsub Hocc. destruct (Py.contains sub p) eqn:E; [|done].
    pose proof (contains_occurrences sub p 101 Hsub E). lia. }
  unfold _get_suggestions. cbn [existsb].
  rewrite !Hno by (done || (vm_compute; lia)).
  cbn [orb negb]. rewrite !elem_of_app. right. apply list_elem_of_here.
Qed.

(** X13.  The two functions agree on sections: a prompt with structure
    score 50 never gets the suggestion
    [Use sections or bullet points for clarity]. *)
Theorem structure_score_50_no_sections_suggestion (p : str) :
  _calculate_structure p = 50%Z ->
  lit "Use sections or bullet points for clarity" ∉ _get_suggestions p.
Proof.
  unfold _calculate_structure, _get_suggestions.
  destruct (2 <=? Py.count (lit "\n") p)%nat eqn:E; [|discriminate].
  intros _. apply Nat.leb_le in E.
  destruct (Py.count (lit "\n") p <? 2)%nat eqn:E2;
    [apply Nat.ltb_lt in E2; lia|].
  destruct (length (Py.split p) <? 10)%nat;
    destruct (negb _); cbn [app];
    rewrite ?not_elem_of_cons; repeat split;
    try apply not_elem_of_nil; intros Heq; vm_compute in Heq;
    discriminate Heq.
Qed.

(** ** The assembled prompt *)

(** A text in front of the string in which the first character of [old]
    does not occur is copied by [replace]. *)
Lemma replace_header old new h x :
  match old with
  | [] => false
  | o :: _ => forallb (fun c => negb (o =? c)) h
  end = true ->
  Py.replace old new (h ++ x) = h ++ Py.replace old new x.
Proof.
  destruct old as [|o old]; [done|]. unfold Py.replace.
  induction h as [|c h IH]; [done|]. cbn [forallb].
  intros [Hc Hh]%andb_prop. apply negb_true_iff in Hc.
  change ((c :: h) ++ x) with (c :: (h ++ x)).
  rewrite replace_scan_cons by done. cbn [Py.startswith]. rewrite Hc.
  cbn [andb]. by rewrite IH.
Qed.

Lemma enhance_clarity_header (x : str) :
  _enhance_clarity (lit "\n" ++ lit "MAIN TASK:\n" ++ x) =
    lit "MAIN TASK:\n"
    ++ Py.replace (lit "okay") []
         (Py.replace (lit "thanks") [] (Py.replace (lit "please") [] x))
    ++ lit "\n\n" ++ clarity_directives.
Proof.
  rewrite enhance_clarity_unfold.
  rewrite (app_assoc (lit "\n") (lit "MAIN TASK:\n") x).
  rewrite !replace_header by (vm_compute; reflexivity).
  set (r := Py.replace (lit "okay") [] _).
  assert (Hx : lit "\n\n" ++ clarity_directives =
               removelast (lit "\n\n" ++ clarity_directives) ++ [46])
    by (vm_compute; reflexivity).
  rewrite Hx.
  pose proof (strip_core [10] 77
    (lit "AIN TASK:\n" ++ r
       ++ removelast (lit "\n\n" ++ clarity_directives)) 46 []
    eq_refl eq_refl eq_refl eq_refl) as H.
  rewrite app_nil_r in H.
  transitivity (77 :: (lit "AIN TASK:\n" ++ r
       ++ removelast (lit "\n\n" ++ clarity_directives)) ++ [46]).
  - rewrite <- H. f_equal. rewrite <- !app_assoc. reflexivity.
  - rewrite <- !app_assoc. reflexivity.
Qed.

(** X14.  [create_advanced_prompt] returns the structure template around
    the assembled text: the heading [MAIN TASK:] comes right after
    [TASK: ] (the leading line feed is stripped), the four arguments and
    the fixed guidelines go through the three deletions of
    [_enhance_clarity], the four blanks that end the assembled text stay,
    and the directive block and the specificity bullets follow. *)
Theorem create_advanced_prompt_shape
    (task context constraints : str) (examples : list str) :
  let body :=
    task ++ lit "\n"
    ++ lit "\n"
    ++ lit "CONTEXT:\n"
    ++ context ++ lit "\n"
    ++ lit "\n"
    ++ lit "CONSTRAINTS:\n"
    ++ constraints ++ lit "\n"
    ++ lit "\n"
    ++ lit "EXAMPLES:\n"
    ++ Py.join [10] (map (fun ex => lit "- " ++ ex) examples) ++ lit "\n"
    ++ lit "\n"
    ++ lit "RESPONSE GUIDELINES:\n"
    ++ lit "1. Be direct and concise\n"
    ++ lit "2. Provide step-by-step guidance\n"
    ++ lit "3. Include code examples where relevant\n"
    ++ lit "4. Highlight important considerations\n"
    ++ lit "5. Suggest best practices\n"
    ++ lit "    " in
  let cleaned :=
    Py.replace (lit "okay") []
      (Py.replace (lit "thanks") [] (Py.replace (lit "please") [] body)) in
  create_advanced_prompt task context constraints examples =
    lit "TASK: " ++ lit "MAIN TASK:\n" ++ cleaned
    ++ lit "\n\n" ++ clarity_directives
    ++ lit "\n\n"
    ++ lit "- Provide specific examples or code snippets.\n"
    ++ lit "- Include exact error messages or outputs.\n"
    ++ lit "- Specify the programming language if applicable.\n"
    ++ lit "- Mention version numbers of tools/libraries."
    ++ structure_rest.
Proof.
  intros body cleaned. unfold create_advanced_prompt. cbv zeta.
  fold body. rewrite optimize_fold. cbn [fold_left].
  unfold apply_technique.
  rewrite lookup_clarity, lookup_specificity, lookup_structure.
  rewrite structure_prompt_eq, enhance_clarity_header.
  fold cleaned. unfold _add_specificity.
  rewrite <- !app_assoc. do 7 f_equal.
Qed.

End PromptOptimizer.

(** ** Instances of the conditional statements *)

Lemma optimize_skips_unknown_techniques_witness :
  optimize (lit "fix this bug") (Some [lit "not_a_real_technique"]) =
    lit "fix this bug".
Proof.
  apply (proj1 optimize_skips_unknown_techniques).
  apply (bool_decide_unpack _). vm_compute. exact I.
Defined.

Lemma get_optimized_prompt_unknown_template_witness :
  get_optimized_prompt (lit "nonexistent_template") ∅ =
    Raise (ValueError (lit "Unknown prompt type: "
                         ++ lit "nonexistent_template")).
Proof.
  apply (get_optimized_prompt_unknown_template
           (lit "nonexistent_template") ∅).
  apply (bool_decide_unpack _). vm_compute. exact I.
Defined.

Lemma get_optimized_prompt_missing_value_witness :
  exists (k : str) (before after : list str),
    placeholders
      (lit "Review the following code for issues:\n{code}\nFocus on: {focus_areas}")
      = before ++ k :: after
    /\ Forall (fun f => is_Some (({[ lit "code" := lit "x = 1" ]}
                 : gmap (list N) (list N)) !! f)) before
    /\ ({[ lit "code" := lit "x = 1" ]} : gmap (list N) (list N)) !! k = None
    /\ get_optimized_prompt (lit "code_review")
         {[ lit "code" := lit "x = 1" ]} = Raise (KeyError k).
Proof.
  apply (get_optimized_prompt_missing_value (lit "code_review")
           (lit "Review the following code for issues:\n{code}\nFocus on: {focus_areas}")
           {[ lit "code" := lit "x = 1" ]}).
  - vm_compute. reflexivity.
  - apply (bool_decide_unpack _). vm_compute. exact I.
Defined.

Lemma call_get_optimized_prompt_extra_keys_witness :
  call_get_optimized_prompt (lit "github_task")
    ({[ lit "verbose" := lit "yes" ]}
     ∪ {[ lit "task" := lit "open a PR"; lit "context" := lit "CI is red" ]})
  = call_get_optimized_prompt (lit "github_task")
      {[ lit "task" := lit "open a PR"; lit "context" := lit "CI is red" ]}
  /\ exists s,
       call_get_optimized_prompt (lit "github_task")
         ({[ lit "verbose" := lit "yes" ]}
          ∪ {[ lit "task" := lit "open a PR";
               lit "context" := lit "CI is red" ]})
       = Return s.
Proof.
  apply (call_get_optimized_prompt_extra_keys (lit "github_task")
           (lit "Help me with this GitHub task:\n{task}\nContext: {context}")).
  - vm_compute. reflexivity.
  - apply (bool_decide_unpack _). vm_compute. exact I.
  - apply (bool_decide_unpack _). vm_compute. exact I.
  - vm_compute. reflexivity.
  - vm_compute. reflexivity.
  - vm_compute. reflexivity.
  - vm_compute. reflexivity.
Defined.

(** C10 as the claim states it fails: the keyword [prompt_type] is no
    placeholder of the template [github_task], the other keywords give
    every placeholder its value, and the call, which returns a string
    without the extra keyword, raises [TypeError] with it. *)
Lemma call_get_optimized_prompt_extra_keys_counterexample :
  prompt_templates !! lit "github_task" =
    Some (lit "Help me with this GitHub task:\n{task}\nContext: {context}")
  /\ Forall
       (fun f =>
          is_Some
            (({[ lit "task" := lit "open a PR";
                 lit "context" := lit "CI is red" ]}
              : gmap (list N) (list N)) !! f))
       (placeholders
          (lit "Help me with this GitHub task:\n{task}\nContext: {context}"))
  /\ Forall
       (fun f =>
          ({[ lit "prompt_type" := lit "x" ]} : gmap (list N) (list N)) !! f
          = None)
       (placeholders
          (lit "Help me with this GitHub task:\n{task}\nContext: {context}"))
  /\ (exists s,
        call_get_optimized_prompt (lit "github_task")
          {[ lit "task" := lit "open a PR"; lit "context" := lit "CI is red" ]}
        = Return s)
  /\ call_get_optimized_prompt (lit "github_task")
       ({[ lit "prompt_type" := lit "x" ]}
        ∪ {[ lit "task" := lit "open a PR";
             lit "context" := lit "CI is red" ]})
     = Raise TypeError
  /\ call_get_optimized_prompt (lit "github_task")
       ({[ lit "prompt_type" := lit "x" ]}
        ∪ {[ lit "task" := lit "open a PR";
             lit "context" := lit "CI is red" ]})
     <> call_get_optimized_prompt (lit "github_task")
          {[ lit "task" := lit "open a PR";
             lit "context" := lit "CI is red" ]}.
Proof.
  split; [vm_compute; reflexivity|].
  split; [apply (bool_decide_unpack _); vm_compute; exact I|].
  split; [apply (bool_decide_unpack _); vm_compute; exact I|].
  split; [eexists; vm_compute; reflexivity|].
  split; [vm_compute; reflexivity|].
  vm_compute. discriminate.
Qed.

Lemma calculate_clarity_score_witness :
  _calculate_clarity (fun s => s)
    (lit "Please SHOW the exact output and provide a clear, specific example")
  = 50%Z.
Proof.
  apply (calculate_clarity_score (fun s => s)
           (lit "Please SHOW the exact output and provide a clear, specific example")).
  apply (bool_decide_unpack _). vm_compute. exact I.
Defined.

Lemma optimize_appending_keeps_prompt_witness :
  lit "fix this bug" `prefix_of`
    optimize (lit "fix this bug")
      (Some [lit "specificity"; lit "context"; lit "shorten"; lit "examples"]).
Proof.
  apply (optimize_appending_keeps_prompt (lit "fix this bug")
           [lit "specificity"; lit "context"; lit "shorten"; lit "examples"]).
  apply (bool_decide_unpack _). vm_compute. exact I.
Defined.

Lemma enhance_clarity_without_keywords_witness :
  _enhance_clarity (lit "  fix this bug ") =
    Py.lstrip (lit "  fix this bug " ++ lit "\n\n" ++ clarity_directives).
Proof.
  apply (enhance_clarity_without_keywords (lit "  fix this bug "));
    vm_compute; reflexivity.
Defined.

Lemma get_optimized_prompt_substitutes_witness :
  get_optimized_prompt (lit "code_review")
    {[ lit "code" := lit "d = {k: v}"; lit "focus_areas" := lit "{naming}" ]}
  = Return (optimize
              (lit "Review the following code for issues:\n"
               ++ lit "d = {k: v}" ++ lit "\nFocus on: " ++ lit "{naming}")
              None)
  /\ get_optimized_prompt (lit "debugging")
       {[ lit "issue" := lit "crash"; lit "error" := lit "KeyError";
          lit "steps" := lit "run it" ]}
     = Return (optimize
                 (lit "Help me debug this issue:\n" ++ lit "crash"
                  ++ lit "\nError: " ++ lit "KeyError"
                  ++ lit "\nSteps: " ++ lit "run it") None).
Proof.
  split.
  - apply (proj1 (get_optimized_prompt_substitutes
       {[ lit "code" := lit "d = {k: v}";
          lit "focus_areas" := lit "{naming}" ]}));
      vm_compute; reflexivity.
  - apply (proj2 (proj2 (proj2 (get_optimized_prompt_substitutes
       {[ lit "issue" := lit "crash"; lit "error" := lit "KeyError";
          lit "steps" := lit "run it" ]}))));
      vm_compute; reflexivity.
Defined.

Lemma calculate_clarity_ignores_case_witness :
  _calculate_clarity (fun s => s) (lit "SHOW the Exact output")
  = _calculate_clarity (fun s => s) (lit "show THE exact OUTPUT").
Proof.
  apply (calculate_clarity_ignores_case (fun s => s)
           (lit "SHOW the Exact output") (lit "show THE exact OUTPUT"));
    vm_compute; reflexivity.
Defined.

Lemma get_suggestions_case_sensitive_witness :
  lit "Include examples or specific cases"
    ∈ _get_suggestions (lit "SHOW SPECIFIC CODE EXAMPLES").
Proof.
  apply (get_suggestions_case_sensitive (lit "SHOW SPECIFIC CODE EXAMPLES")).
  vm_compute. reflexivity.
Defined.

Lemma structure_score_50_no_sections_suggestion_witness :
  lit "Use sections or bullet points for clarity"
    ∉ _get_suggestions (lit "steps:\n- build\n- test").
Proof.
  apply (structure_score_50_no_sections_suggestion
           (lit "steps:\n- build\n- test")).
  vm_compute. reflexivity.
Defined.
